(** * Deception-Driven Cloud Auditing: audit trail and watch supervisor

    A shallow embedding of [audit_logger.py] (class [AuditLogger]),
    of the [/api/attacks] route of [app.py] and of the lifecycle methods of
    [MonitorService] in [monitor_service.py], followed by the properties of
    the specification that concern them.

    Conventions of the embedding.
    - A Python [str] is a [string] (a sequence of bytes); integer parsing and
      printing are modelled for ASCII text.
    - A method that can raise returns a [Py.result]; [try]/[except] blocks are
      written out with [Py.try_except].
    - The two JSON files of the logger are the [fs] record; whether a write or
      an unlink succeeds is decided by the [io] argument of each call.
    - [datetime.utcnow()] readings are explicit arguments. *)

From Stdlib Require Import ZArith String Ascii List Lia Bool.
From Stdlib Require Import DecimalString DecimalN OrderedTypeEx Sorting.Sorted.
From stdpp Require Import gmap strings list.

Open Scope Z_scope.

(** ** Python primitives *)
Module Py.

(** Exception classes that the audited code raises or names in a handler. *)
Inductive exn_kind :=
| ValueError | IndexError | TypeError | JSONDecodeError | OSError | RuntimeError.

(** An exception: its class and [str(e)]. *)
Record exn := Exn { kind : exn_kind; str : string }.

Inductive result (A : Type) :=
| Ok (a : A)
| Raise (e : exn).
Arguments Ok {A} a.
Arguments Raise {A} e.

Definition bind {A B} (r : result A) (k : A -> result B) : result B :=
  match r with Ok a => k a | Raise e => Raise e end.

(** [try: body  except Exception as e: handler e] *)
Definition try_except {A} (body : result A) (handler : exn -> result A) : result A :=
  match body with Ok a => Ok a | Raise e => handler e end.

(** [try: body  except (ks) as e: handler e]: other classes propagate. *)
Definition try_except_kinds {A} (ks : list exn_kind) (body : result A)
    (handler : exn -> result A) : result A :=
  match body with
  | Ok a => Ok a
  | Raise e =>
      if existsb (fun k => match k, kind e with
                           | ValueError, ValueError | IndexError, IndexError
                           | TypeError, TypeError | JSONDecodeError, JSONDecodeError
                           | OSError, OSError | RuntimeError, RuntimeError => true
                           (* json.JSONDecodeError is a subclass of ValueError *)
                           | ValueError, JSONDecodeError => true
                           | _, _ => false
                           end) ks
      then handler e else Raise e
  end.

Definition is_Ok {A} (r : result A) : bool :=
  match r with Ok _ => true | Raise _ => false end.

(** Truth value of a [str]: non-empty. *)
Definition truthy (s : string) : bool := negb (String.eqb s "").

(** Truth value of an [Optional[str]]. *)
Definition truthy_opt (o : option string) : bool :=
  match o with Some s => truthy s | None => false end.

Definition is_digit (c : ascii) : bool :=
  let n := nat_of_ascii c in (48 <=? n)%nat && (n <=? 57)%nat.

(** Characters removed by [str.strip()] and skipped by [int()]. *)
Definition is_space (c : ascii) : bool :=
  let n := nat_of_ascii c in
  ((9 <=? n)%nat && (n <=? 13)%nat) || ((28 <=? n)%nat && (n <=? 32)%nat).

Fixpoint all_digits (s : string) : bool :=
  match s with
  | EmptyString => true
  | String c r => is_digit c && all_digits r
  end.

Fixpoint lstrip (s : string) : string :=
  match s with
  | String c r => if is_space c then lstrip r else s
  | EmptyString => EmptyString
  end.

Fixpoint rstrip (s : string) : string :=
  match s with
  | EmptyString => EmptyString
  | String c r =>
      match rstrip r with
      | EmptyString => if is_space c then EmptyString else String c EmptyString
      | r' => String c r'
      end
  end.

Definition strip (s : string) : string := rstrip (lstrip s).

(** The digits of an [int()] literal: single underscores are allowed
    between two digits and dropped. *)
Fixpoint group_digits (prev_digit : bool) (s : string) : option string :=
  match s with
  | EmptyString => Some EmptyString
  | String c r =>
      if is_digit c then option_map (String c) (group_digits true r)
      else if Ascii.eqb c "_" then
        if prev_digit && match r with String d _ => is_digit d | EmptyString => false end
        then group_digits false r
        else None
      else None
  end.

Definition parse_digits (s : string) : option Z :=
  match group_digits false s with
  | Some t => option_map (fun d => Z.of_N (N.of_uint d)) (NilZero.uint_of_string t)
  | None => None
  end.

(** [int(s)] for a [str]: optional surrounding white space, optional sign,
    decimal digits. *)
Definition int (s : string) : result Z :=
  let t := strip s in
  let parsed :=
    match t with
    | String "-" r => option_map Z.opp (parse_digits r)
    | String "+" r => parse_digits r
    | _ => parse_digits t
    end in
  match parsed with
  | Some n => Ok n
  | None => Raise (Exn ValueError ("invalid literal for int() with base 10: " +:+ s))
  end.

(** Decimal digits of a non-negative integer. *)
Definition digits (n : Z) : string :=
  NilZero.string_of_uint (N.to_uint (Z.to_N n)).

(** [str(n)] for an [int]. *)
Definition str_int (n : Z) : string :=
  if n <? 0 then "-" +:+ digits (- n) else digits n.

Fixpoint zeros (k : nat) : string :=
  match k with O => EmptyString | S k' => String "0" (zeros k') end.

(** [s.zfill(w)] on a string of digits. *)
Definition zfill (w : nat) (s : string) : string :=
  zeros (w - String.length s) +:+ s.

(** [f'{n:0{w}d}']: sign-aware zero padding to width [w]. *)
Definition format_0d (w : nat) (n : Z) : string :=
  if n <? 0 then "-" +:+ zfill (w - 1) (digits (- n)) else zfill w (digits n).

(** [s.split(sep)] for a one-character separator. *)
Fixpoint split (sep : ascii) (s : string) : list string :=
  match s with
  | EmptyString => [EmptyString]
  | String c r =>
      if Ascii.eqb c sep then EmptyString :: split sep r
      else match split sep r with
           | h :: t => String c h :: t
           | [] => [String c EmptyString]
           end
  end.

(** [l[i]] for [i >= 0]. *)
Definition index {A} (l : list A) (i : nat) : result A :=
  match l !! i with
  | Some x => Ok x
  | None => Raise (Exn IndexError "list index out of range")
  end.

(** [l[:stop]]: a negative [stop] counts from the end. *)
Definition slice_to {A} (l : list A) (stop : Z) : list A :=
  if 0 <=? stop then take (Z.to_nat stop) l
  else take (List.length l - Z.to_nat (- stop)) l.

(** [s.replace('Z', '+00:00')] *)
Fixpoint replace_Z (s : string) : string :=
  match s with
  | EmptyString => EmptyString
  | String c r =>
      if Ascii.eqb c "Z" then "+00:00" +:+ replace_Z r else String c (replace_Z r)
  end.

(** [l.sort(key=key, reverse=True)]: descending, and stable (elements with
    equal keys keep their original order). *)
Section Sort.
Context {A : Type} (key : A -> string).

Fixpoint insert_reverse (x : A) (l : list A) : list A :=
  match l with
  | [] => [x]
  | y :: l' =>
      if String.ltb (key x) (key y) then y :: insert_reverse x l' else x :: l
  end.

Definition sort_reverse (l : list A) : list A := foldr insert_reverse [] l.
End Sort.

(** [Path(p).name] on POSIX: the last component, ignoring empty and [.]
    components; empty for the root. *)
Definition path_name (p : string) : string :=
  List.last (List.filter (fun c => negb (String.eqb c "" || String.eqb c "."))
               (split "/" p)) EmptyString.

(** [repr] of a list of plain names, as an f-string prints it. *)
Definition repr_names (l : list string) : string :=
  "[" +:+ String.concat ", " (List.map (fun s => "'" +:+ s +:+ "'") l) +:+ "]".

End Py.

(** ** The part of the [datetime] library that the logger uses

  A naive [datetime] is its fields.  [isoformat] prints them;
  [fromisoformat] reads the formats that [isoformat] produces, with an
  optional UTC offset, and rejects field values out of range. *)
Module Datetime.
Import Py.

Record datetime := Build_datetime
  { year : Z; month : Z; day : Z; hour : Z; minute : Z; second : Z; microsecond : Z }.

Definition is_leap (y : Z) : bool :=
  (y mod 4 =? 0) && (negb (y mod 100 =? 0) || (y mod 400 =? 0)).

Definition days_in_month (y m : Z) : Z :=
  if m =? 2 then (if is_leap y then 29 else 28)
  else if (m =? 4) || (m =? 6) || (m =? 9) || (m =? 11) then 30
  else 31.

Definition days_before_year (y : Z) : Z :=
  let p := y - 1 in p * 365 + p / 4 - p / 100 + p / 400.

Definition days_before_month (y m : Z) : Z :=
  fold_right (fun k acc => days_in_month y k + acc) 0
    (List.map Z.of_nat (List.seq 1 (Z.to_nat (m - 1)))).

Definition toordinal (d : datetime) : Z :=
  days_before_year (year d) + days_before_month (year d) (month d) + day d.

Definition valid (d : datetime) : bool :=
  (1 <=? year d) && (year d <=? 9999)
  && (1 <=? month d) && (month d <=? 12)
  && (1 <=? day d) && (day d <=? days_in_month (year d) (month d))
  && (0 <=? hour d) && (hour d <? 24)
  && (0 <=? minute d) && (minute d <? 60)
  && (0 <=? second d) && (second d <? 60)
  && (0 <=? microsecond d) && (microsecond d <? 1000000).

(** Microseconds since the start of day 0 of the proleptic calendar. *)
Definition to_microseconds (d : datetime) : Z :=
  ((toordinal d * 86400 + hour d * 3600 + minute d * 60 + second d) * 1000000)
  + microsecond d.

(** [int((a - b).total_seconds())]: truncation towards zero. *)
Definition seconds_between (a b : datetime) : Z :=
  Z.quot (to_microseconds a - to_microseconds b) 1000000.

Definition digit (n : Z) : ascii := ascii_of_nat (48 + Z.to_nat (n mod 10)).

Definition d2 (n : Z) : string :=
  String (digit (n / 10)) (String (digit n) EmptyString).
Definition d4 (n : Z) : string := d2 (n / 100) +:+ d2 n.
Definition d6 (n : Z) : string := d2 (n / 10000) +:+ d4 n.

(** [d.isoformat()] of a naive datetime. *)
Definition isoformat (d : datetime) : string :=
  d4 (year d) +:+ "-" +:+ d2 (month d) +:+ "-" +:+ d2 (day d) +:+ "T"
  +:+ d2 (hour d) +:+ ":" +:+ d2 (minute d) +:+ ":" +:+ d2 (second d)
  +:+ (if microsecond d =? 0 then EmptyString else "." +:+ d6 (microsecond d)).

Definition undigit (c : ascii) : option Z :=
  if is_digit c then Some (Z.of_nat (nat_of_ascii c) - 48) else None.

(** Read exactly [k] decimal digits. *)
Fixpoint take_num (k : nat) (acc : Z) (s : string) : option (Z * string) :=
  match k with
  | O => Some (acc, s)
  | S k' =>
      match s with
      | String c r =>
          match undigit c with
          | Some v => take_num k' (acc * 10 + v) r
          | None => None
          end
      | EmptyString => None
      end
  end.

Definition expect (c : ascii) (s : string) : option string :=
  match s with
  | String c' r => if Ascii.eqb c c' then Some r else None
  | EmptyString => None
  end.

(** The optional [.ffffff] part. *)
Definition take_fraction (s : string) : option (Z * string) :=
  match s with
  | String "." r => take_num 6 0 r
  | _ => Some (0, s)
  end.

(** The optional [+HH:MM] or [-HH:MM] part, which must end the string. *)
Definition take_offset (s : string) : option unit :=
  match s with
  | EmptyString => Some tt
  | String c r =>
      if Ascii.eqb c "+" || Ascii.eqb c "-" then
        match take_num 2 0 r with
        | Some (h, r1) =>
            match expect ":" r1 with
            | Some r2 =>
                match take_num 2 0 r2 with
                | Some (m, EmptyString) =>
                    if (h <? 24) && (m <? 60) then Some tt else None
                | _ => None
                end
            | None => None
            end
        | None => None
        end
      else None
  end.

Definition parse_fields (s : string) : option datetime :=
  '(y, s) ← take_num 4 0 s; s ← expect "-" s;
  '(mo, s) ← take_num 2 0 s; s ← expect "-" s;
  '(d, s) ← take_num 2 0 s; s ← expect "T" s;
  '(h, s) ← take_num 2 0 s; s ← expect ":" s;
  '(mi, s) ← take_num 2 0 s; s ← expect ":" s;
  '(sec, s) ← take_num 2 0 s;
  '(us, s) ← take_fraction s;
  _ ← take_offset s;
  Some (Build_datetime y mo d h mi sec us).

(** [datetime.fromisoformat(s).replace(tzinfo=None)] *)
Definition fromisoformat (s : string) : result datetime :=
  match parse_fields s with
  | Some d =>
      if valid d then Ok d
      else Raise (Exn ValueError "field out of range")
  | None => Raise (Exn ValueError ("Invalid isoformat string: " +:+ s))
  end.

End Datetime.

(** ** State and exceptions: [S -> result A * S]

  A raised exception keeps the state reached when it was raised. *)
Module Eff.
Import Py.

Definition M (S A : Type) : Type := S -> result A * S.

Definition ret {S A} (a : A) : M S A := fun s => (Ok a, s).
Definition raise {S A} (e : exn) : M S A := fun s => (Raise e, s).
Definition lift {S A} (r : result A) : M S A := fun s => (r, s).
Definition gets {S A} (f : S -> A) : M S A := fun s => (Ok (f s), s).
Definition modify {S} (f : S -> S) : M S unit := fun s => (Ok tt, f s).

Definition bind {S A B} (m : M S A) (k : A -> M S B) : M S B :=
  fun s => match m s with
           | (Ok a, s') => k a s'
           | (Raise e, s') => (Raise e, s')
           end.

(** [try: body  except Exception as e: handler e] *)
Definition try_except {S A} (body : M S A) (handler : exn -> M S A) : M S A :=
  fun s => match body s with
           | (Ok a, s') => (Ok a, s')
           | (Raise e, s') => handler e s'
           end.

Declare Scope eff_scope.
Delimit Scope eff_scope with eff.
Notation "'let!' x ':=' m 'in' k" := (bind m (fun x => k))
  (at level 10, x name, m at level 100, k at level 200) : eff_scope.
Notation "'do!' m 'in' k" := (bind m (fun _ => k))
  (at level 10, m at level 100, k at level 200) : eff_scope.
End Eff.

(** ** [audit_logger.py] *)
Module AuditLogger.
Import Py Datetime Eff.
Open Scope eff_scope.

(** [@dataclass AttackEvent] *)
Record AttackEvent := Build_AttackEvent
  { timestamp : string; event_type : string; file_path : string;
    filename : string; attack_id : string; process_name : string;
    process_id : string; username : string; command_line : string;
    ip_address : string }.

(** [@dataclass SystemStatus] *)
Record SystemStatus := Build_SystemStatus
  { status : string; last_attack : option string; total_attacks : Z;
    monitoring_active : bool; uptime_seconds : Z; start_time : string }.

(** [asdict(self)]: a JSON object with string values. *)
Definition to_dict (e : AttackEvent) : gmap string string :=
  <["timestamp" := timestamp e]> (<["event_type" := event_type e]>
  (<["file_path" := file_path e]> (<["filename" := filename e]>
  (<["attack_id" := attack_id e]> (<["process_name" := process_name e]>
  (<["process_id" := process_id e]> (<["username" := username e]>
  (<["command_line" := command_line e]> (<["ip_address" := ip_address e]> ∅))))))))).

Definition field_names : list string :=
  ["timestamp"; "event_type"; "file_path"; "filename"; "attack_id";
   "process_name"; "process_id"; "username"; "command_line"; "ip_address"].

(** [from_dict]: the keys become keyword arguments of the constructor, so
    a missing or an unexpected key is a [TypeError]. *)
Definition from_dict (data : gmap string string) : result AttackEvent :=
  if decide (dom data = list_to_set field_names) then
    let get k := default EmptyString (data !! k) in
    Ok (Build_AttackEvent (get "timestamp") (get "event_type") (get "file_path")
          (get "filename") (get "attack_id") (get "process_name")
          (get "process_id") (get "username") (get "command_line")
          (get "ip_address"))
  else Raise (Exn TypeError "__init__() got unexpected or missing keyword arguments").

(** A file of the logs directory: missing, present but unreadable or not
    the JSON the logger writes, or holding a value. *)
Inductive file (A : Type) :=
| Absent
| Corrupt
| Content (a : A).
Arguments Absent {A}.
Arguments Corrupt {A}.
Arguments Content {A} a.

Definition exists_ {A} (f : file A) : bool :=
  match f with Absent => false | _ => true end.

(** [logs/attacks.json] and [logs/system_status.json]. *)
Record fs := Build_fs
  { attacks_log_file : file (list (gmap string string));
    status_file : file SystemStatus }.

(** The fields of an [AuditLogger] instance. *)
Record AuditLogger := Build_AuditLogger
  { system_start_time : datetime; attack_counter : Z }.

Record world := World { disk : fs; self : AuditLogger }.

(** What [open(path, 'w')] followed by [json.dump] does: succeed, fail
    before the file is touched, or fail after truncating it. *)
Inductive write_outcome := WriteOk | WriteDenied | WriteTorn.

(** What [psutil.Process()] reports. *)
Record process := Build_process
  { proc_name : string; proc_pid : Z; proc_username : string;
    proc_cmdline : list string }.

(** The environment of one call. *)
Record io := Build_io
  { attacks_write : write_outcome;
    status_write : write_outcome;
    attacks_unlink : bool;
    psutil_Process : result process }.

Definition write_file {A} (o : write_outcome) (old : file A) (new : A)
    : result unit * file A :=
  match o with
  | WriteOk => (Ok tt, Content new)
  | WriteDenied => (Raise (Exn OSError "Permission denied"), old)
  | WriteTorn => (Raise (Exn OSError "No space left on device"), Corrupt)
  end.

(** [with open(f) as f: json.load(f)] on an existing file. *)
Definition json_load {A} (f : file A) : result A :=
  match f with
  | Content a => Ok a
  | Corrupt => Raise (Exn JSONDecodeError "Expecting value")
  | Absent => Raise (Exn OSError "No such file or directory")
  end.

Definition set_attacks (f : file (list (gmap string string))) (w : world) : world :=
  World (Build_fs f (status_file (disk w))) (self w).
Definition set_status_file (f : file SystemStatus) (w : world) : world :=
  World (Build_fs (attacks_log_file (disk w)) f) (self w).
Definition set_self (a : AuditLogger) (w : world) : world := World (disk w) a.

Definition default_status (a : AuditLogger) : SystemStatus :=
  Build_SystemStatus "SAFE" None 0 false 0 (isoformat (system_start_time a) +:+ "Z").

(** [_save_system_status]: a failed write is printed, not raised. *)
Definition _save_system_status (e : io) (st : SystemStatus) : M world unit :=
  try_except
    (fun w => let '(r, f) := write_file (status_write e) (status_file (disk w)) st in
              (r, set_status_file f w))
    (fun _ => ret tt).

Definition _initialize_system_status (e : io) : M world unit :=
  let! present := gets (fun w => exists_ (status_file (disk w))) in
  if negb present then
    let! a := gets self in _save_system_status e (default_status a)
  else ret tt.

(** One iteration of the loop of [_get_next_attack_counter]: the new
    [max_id]. *)
Definition scan_attack (max_id : Z) (attack : gmap string string) : result Z :=
  let attack_id := default "ATK_000" (attack !! "attack_id") in
  if String.prefix "ATK_" attack_id then
    try_except_kinds [IndexError; ValueError]
      (Py.bind (index (split "_" attack_id) 1) (fun seg =>
       Py.bind (int seg) (fun id_num => Ok (Z.max max_id id_num))))
      (fun _ => Ok max_id)
  else Ok max_id.

Fixpoint scan_attacks (max_id : Z) (attacks : list (gmap string string)) : result Z :=
  match attacks with
  | [] => Ok max_id
  | attack :: rest => Py.bind (scan_attack max_id attack) (fun m => scan_attacks m rest)
  end.

Definition _get_next_attack_counter (d : fs) : result Z :=
  Py.try_except
    (if exists_ (attacks_log_file d) then
       Py.bind (json_load (attacks_log_file d)) (fun attacks =>
       match attacks with
       | [] => Ok 1
       | _ => Py.bind (scan_attacks 0 attacks) (fun max_id => Ok (max_id + 1))
       end)
     else Ok 1)
    (fun _ => Ok 1).

(** [AuditLogger(logs_directory)] on the files [d], at time [now]: the
    world with the new instance. *)
Definition init (e : io) (now : datetime) (d : fs) : result world :=
  let w0 := World d (Build_AuditLogger now 0) in
  fst ((do! _initialize_system_status e in
        let! c := (fun w => (_get_next_attack_counter (disk w), w)) in
        do! modify (set_self (Build_AuditLogger now c)) in
        gets (fun w => w)) w0).

Definition _load_system_status : M world SystemStatus :=
  try_except
    (let! f := gets (fun w => status_file (disk w)) in
     if exists_ f then lift (json_load f)
     else let! a := gets self in ret (default_status a))
    (fun _ => let! a := gets self in ret (default_status a)).

(** The uptime block shared by [update_system_status] and
    [get_system_status]. *)
Definition refresh_uptime (now : datetime) (st : SystemStatus) : SystemStatus :=
  if truthy (start_time st) then
    match Py.try_except
            (Py.bind (fromisoformat (replace_Z (start_time st))) (fun t0 =>
             Ok (seconds_between now t0)))
            (fun _ => Ok 0) with
    | Ok up => Build_SystemStatus (status st) (last_attack st) (total_attacks st)
                 (monitoring_active st) up (start_time st)
    | Raise _ => st
    end
  else st.

Definition unknown_process_info : gmap string string :=
  <["process_name" := "Unknown"]> (<["process_id" := "Unknown"]>
  (<["username" := "Unknown"]> (<["command_line" := "Unknown"]> ∅))).

(** [_get_current_process_info]: any [psutil] failure gives the
    [Unknown] record.  The pid is stored as [log_attack_event] will print
    it with [str]. *)
Definition _get_current_process_info (e : io) : result (gmap string string) :=
  Py.try_except
    (Py.bind (psutil_Process e) (fun p =>
     Ok (<["process_name" := proc_name p]> (<["process_id" := str_int (proc_pid p)]>
        (<["username" := proc_username p]>
        (<["command_line" := match proc_cmdline p with
                             | [] => "N/A"
                             | _ => String.concat " " (proc_cmdline p)
                             end]> ∅))))))
    (fun _ => Ok unknown_process_info).

Definition _get_ip_address : result string :=
  Py.try_except (Ok "127.0.0.1") (fun _ => Ok "Unknown").

(** [_save_attack_event]: load the whole list, append, rewrite; any
    failure is printed and raised again. *)
Definition _save_attack_event (e : io) (ev : AttackEvent) : M world unit :=
  try_except
    (let! f := gets (fun w => attacks_log_file (disk w)) in
     let! attacks := (if exists_ f then lift (json_load f) else ret []) in
     let attacks := attacks ++ [to_dict ev] in
     fun w => let '(r, f') := write_file (attacks_write e) f attacks in
              (r, set_attacks f' w))
    (fun ex => raise ex).

Definition update_system_status (e : io) (now : datetime) (new_status : string)
    (last_attack_time : option string) : M world unit :=
  try_except
    (let! current_status := _load_system_status in
     let current_status :=
       Build_SystemStatus new_status (last_attack current_status)
         (total_attacks current_status) (monitoring_active current_status)
         (uptime_seconds current_status) (start_time current_status) in
     let current_status :=
       if truthy_opt last_attack_time then
         Build_SystemStatus (status current_status) last_attack_time
           (total_attacks current_status + 1) (monitoring_active current_status)
           (uptime_seconds current_status) (start_time current_status)
       else current_status in
     let current_status := refresh_uptime now current_status in
     _save_system_status e current_status)
    (fun _ => ret tt).

(** The event that [log_attack_event] builds before it touches the files
    (lines 169 to 193): it reads [self.attack_counter]. *)
Definition make_attack_event (e : io) (now : datetime) (ev_type path : string)
    (process_info : option (gmap string string)) (ip : option string)
    : M world AttackEvent :=
  let timestamp := isoformat now +:+ "Z" in
  let filename := path_name path in
  let! counter := gets (fun w => attack_counter (self w)) in
  let attack_id := "ATK_" +:+ format_0d 3 counter in
  let! process_info :=
    match process_info with
    | None => lift (_get_current_process_info e)
    | Some p => ret p
    end in
  let! ip :=
    match ip with
    | None => lift _get_ip_address
    | Some a => ret a
    end in
  ret (Build_AttackEvent timestamp ev_type path filename attack_id
         (default "Unknown" (process_info !! "process_name"))
         (default "Unknown" (process_info !! "process_id"))
         (default "Unknown" (process_info !! "username"))
         (default "Unknown" (process_info !! "command_line"))
         ip).

Definition increment_counter : M world unit :=
  modify (fun w => set_self (Build_AuditLogger (system_start_time (self w))
                               (attack_counter (self w) + 1)) w).

(** [log_attack_event]; [now] is the clock when the event is stamped and
    [now'] the clock when the status is updated. *)
Definition log_attack_event (e : io) (now now' : datetime) (ev_type path : string)
    (process_info : option (gmap string string)) (ip : option string)
    : M world AttackEvent :=
  try_except
    (let! attack_event := make_attack_event e now ev_type path process_info ip in
     do! _save_attack_event e attack_event in
     do! update_system_status e now' "UNDER_ATTACK" (Some (timestamp attack_event)) in
     do! increment_counter in
     ret attack_event)
    (fun ex => raise ex).

Definition get_system_status (now : datetime) : M world SystemStatus :=
  let! st := _load_system_status in
  ret (refresh_uptime now st).

Fixpoint from_dicts (l : list (gmap string string)) : result (list AttackEvent) :=
  match l with
  | [] => Ok []
  | data :: rest =>
      Py.bind (from_dict data) (fun ev =>
      Py.bind (from_dicts rest) (fun evs => Ok (ev :: evs)))
  end.

Definition get_recent_attacks (limit : Z) (d : fs) : result (list AttackEvent) :=
  Py.try_except
    (if negb (exists_ (attacks_log_file d)) then Ok []
     else
       Py.bind (json_load (attacks_log_file d)) (fun attacks_data =>
       Py.bind (from_dicts attacks_data) (fun attacks =>
       let attacks := sort_reverse timestamp attacks in
       Ok (slice_to attacks limit))))
    (fun _ => Ok []).

Definition get_all_attacks (d : fs) : result (list AttackEvent) :=
  Py.try_except
    (if negb (exists_ (attacks_log_file d)) then Ok []
     else
       Py.bind (json_load (attacks_log_file d)) (fun attacks_data =>
       from_dicts attacks_data))
    (fun _ => Ok []).

(** [reset_system]; [now] stamps the new status record and [now'] the new
    [system_start_time]. *)
Definition reset_system (e : io) (now now' : datetime) : M world bool :=
  try_except
    (let! f := gets (fun w => attacks_log_file (disk w)) in
     do! (if exists_ f then
            if attacks_unlink e then modify (set_attacks Absent)
            else raise (Exn OSError "Permission denied")
          else ret tt) in
     let reset_status :=
       Build_SystemStatus "SAFE" None 0 false 0 (isoformat now +:+ "Z") in
     do! _save_system_status e reset_status in
     do! modify (fun w => set_self (Build_AuditLogger now' 1) w) in
     ret true)
    (fun _ => ret false).

Definition set_monitoring_status (e : io) (active : bool) : M world unit :=
  try_except
    (let! current_status := _load_system_status in
     let current_status :=
       Build_SystemStatus (status current_status) (last_attack current_status)
         (total_attacks current_status) active
         (uptime_seconds current_status) (start_time current_status) in
     _save_system_status e current_status)
    (fun _ => ret tt).

End AuditLogger.

(** ** Sequences of calls on one instance, sequential and interleaved *)
Module Calls.
Import Py Datetime Eff AuditLogger.

(** The arguments and the environment of one [log_attack_event] call. *)
Record call := Build_call
  { c_io : io; c_now : datetime; c_now' : datetime;
    c_event_type : string; c_file_path : string;
    c_process_info : option (gmap string string);
    c_ip_address : option string }.

Definition run_call (c : call) : M world AttackEvent :=
  log_attack_event (c_io c) (c_now c) (c_now' c) (c_event_type c) (c_file_path c)
    (c_process_info c) (c_ip_address c).

(** Calls made one after the other: the outcome of each, and the world
    after the last. *)
Fixpoint run_calls (cs : list call) (w : world) : list (result AttackEvent) * world :=
  match cs with
  | [] => ([], w)
  | c :: cs' =>
      let '(r, w1) := run_call c w in
      let '(rs, w2) := run_calls cs' w1 in
      (r :: rs, w2)
  end.

(** The events of the calls that returned. *)
Fixpoint completed (rs : list (result AttackEvent)) : list AttackEvent :=
  match rs with
  | [] => []
  | Ok ev :: rs' => ev :: completed rs'
  | Raise _ :: rs' => completed rs'
  end.

(** The number that [_get_next_attack_counter] reads in an identifier:
    [int(attack_id.split('_')[1])]. *)
Definition id_number (attack_id : string) : result Z :=
  Py.bind (index (split "_" attack_id) 1) int.

(** The events stored in the attacks file, when it can be read. *)
Definition stored (d : fs) : list (gmap string string) :=
  match attacks_log_file d with
  | Content l => l
  | _ => []
  end.

(** Where a thread stands inside [log_attack_event]: the statements
    between two points run without interruption. *)
Inductive pc :=
| AtStart
| Built (ev : AttackEvent)
| Saved (ev : AttackEvent)
| Updated (ev : AttackEvent)
| Returned (ev : AttackEvent)
| Failed (e : exn).

Definition advance {A} (r : result A * world) (next : A -> pc) : pc * world :=
  match r with
  | (Ok a, w') => (next a, w')
  | (Raise e, w') => (Failed e, w')
  end.

(** One scheduling step of a thread running call [c]. *)
Definition step_thread (c : call) (p : pc) (w : world) : pc * world :=
  match p with
  | AtStart =>
      advance (make_attack_event (c_io c) (c_now c) (c_event_type c) (c_file_path c)
                 (c_process_info c) (c_ip_address c) w) Built
  | Built ev => advance (_save_attack_event (c_io c) ev w) (fun _ => Saved ev)
  | Saved ev =>
      advance (update_system_status (c_io c) (c_now' c) "UNDER_ATTACK"
                 (Some (timestamp ev)) w) (fun _ => Updated ev)
  | Updated ev => advance (increment_counter w) (fun _ => Returned ev)
  | Returned ev => (Returned ev, w)
  | Failed e => (Failed e, w)
  end.

(** Where a thread ends when its call ran to the end without interruption. *)
Definition outcome_pc (r : result AttackEvent) : pc :=
  match r with Ok ev => Returned ev | Raise e => Failed e end.

(** Threads that share the instance; a schedule names the thread that
    takes each step. *)
Fixpoint run_schedule (sched : list nat) (ts : list (call * pc)) (w : world)
    : list (call * pc) * world :=
  match sched with
  | [] => (ts, w)
  | i :: sched' =>
      match ts !! i with
      | Some (c, p) =>
          let '(p', w') := step_thread c p w in
          run_schedule sched' (<[i := (c, p')]> ts) w'
      | None => run_schedule sched' ts w
      end
  end.

Definition returned_events (ts : list (call * pc)) : list AttackEvent :=
  omap (fun t => match snd t with Returned ev => Some ev | _ => None end) ts.

(** The record that [_load_system_status] yields in world [w]. *)
Definition loaded_status (w : world) : SystemStatus :=
  match status_file (disk w) with
  | Content s => s
  | _ => default_status (self w)
  end.

(** The status invariant, with the sign of the count that makes it
    inductive. *)
Definition status_ok (st : SystemStatus) : Prop :=
  0 <= total_attacks st /\ (status st = "UNDER_ATTACK" <-> 0 < total_attacks st).

(** The operations of the audit trail, with their environment. *)
Inductive op :=
| RecordEvent (c : call)
| Reset (e : io) (now now' : datetime)
| SetMonitoringActive (e : io) (active : bool)
| GetStatus (now : datetime).

Definition run_op (o : op) (w : world) : world :=
  match o with
  | RecordEvent c => snd (run_call c w)
  | Reset e now now' => snd (reset_system e now now' w)
  | SetMonitoringActive e active => snd (set_monitoring_status e active w)
  | GetStatus now => snd (get_system_status now w)
  end.

(** The worlds an instance can be in: created on a directory without a
    readable status record, or on the files a reachable world left, and
    then used through the operations. *)
Inductive reachable : world -> Prop :=
| reach_fresh e now d w :
    (forall s, status_file d <> Content s) ->
    init e now d = Ok w -> reachable w
| reach_restart e now w0 w :
    reachable w0 -> init e now (disk w0) = Ok w -> reachable w
| reach_op o w : reachable w -> reachable (run_op o w).

End Calls.

(** ** The [/api/attacks] route of [app.py] *)
Module App.
Import Py AuditLogger.

(** [request.args.get(key, default, type=int)]: the default when the
    parameter is missing or does not convert. *)
Definition args_get_int (arg : option string) (default : Z) : Z :=
  match arg with
  | None => default
  | Some rv =>
      match try_except_kinds [ValueError; TypeError] (int rv) (fun _ => Ok default) with
      | Ok v => v
      | Raise _ => default
      end
  end.

(** Lines 147 to 152. *)
Definition route_limit (arg : option string) : Z :=
  let limit := args_get_int arg 10 in
  if (limit <? 1) || (limit >? 100) then 10 else limit.

Record response := Build_response
  { http_status : Z; attacks : list AttackEvent; total_count : Z;
    error : option string }.

(** [GET /api/attacks?limit=arg]; [logger] is the module-level
    [audit_logger], [None] when initialisation failed. *)
Definition get_recent_attacks (components_healthy : bool) (logger : option fs)
    (arg : option string) : response :=
  match components_healthy, logger with
  | true, Some d =>
      let limit := route_limit arg in
      match AuditLogger.get_recent_attacks limit d with
      | Ok recent_attacks =>
          Build_response 200 recent_attacks (Z.of_nat (List.length recent_attacks)) None
      | Raise e =>
          Build_response 500 [] 0 (Some ("Failed to retrieve attacks: " +:+ str e))
      end
  | _, _ => Build_response 503 [] 0 (Some "Audit logger not available")
  end.

End App.

(** ** [monitor_service.py]: class [MonitorService] *)
Module MonitorService.
Import Py Datetime Eff.
Open Scope eff_scope.

(** The watchdog observer thread, as far as the service looks at it. *)
Record Observer := Build_Observer { is_alive : bool }.

(** The fields of a [MonitorService] instance.  The handler is kept by its
    [event_count]; the auto-restart thread by its [is_alive()]. *)
Record MonitorService := Build_MonitorService
  { observer : option Observer;
    handler : option Z;
    is_monitoring : bool;
    start_time : option datetime;
    restart_count : Z;
    max_restarts : Z;
    restart_delay : Z;
    last_error : option string;
    error_count : Z;
    health_check_interval : Z;
    auto_restart_thread : option bool;
    shutdown_requested : bool }.

(** [MonitorService(honey_token_manager, audit_logger)] *)
Definition new_service : MonitorService :=
  Build_MonitorService None None false None 0 5 1 None 0 30 None false.

(** The service, the audit logger it was given, the lines it has printed
    (those of its collaborators are not kept) and the time it has slept,
    in milliseconds per call of [time.sleep]. *)
Record world := World
  { service : MonitorService;
    audit_logger : option AuditLogger.world;
    stdout : list string;
    slept : list Z }.

Definition on_service (f : MonitorService -> MonitorService) : M world unit :=
  modify (fun w => World (f (service w)) (audit_logger w) (stdout w) (slept w)).

Definition set_observer v (m : MonitorService) :=
  Build_MonitorService v (handler m) (is_monitoring m) (start_time m) (restart_count m)
    (max_restarts m) (restart_delay m) (last_error m) (error_count m)
    (health_check_interval m) (auto_restart_thread m) (shutdown_requested m).
Definition set_handler v (m : MonitorService) :=
  Build_MonitorService (observer m) v (is_monitoring m) (start_time m) (restart_count m)
    (max_restarts m) (restart_delay m) (last_error m) (error_count m)
    (health_check_interval m) (auto_restart_thread m) (shutdown_requested m).
Definition set_is_monitoring v (m : MonitorService) :=
  Build_MonitorService (observer m) (handler m) v (start_time m) (restart_count m)
    (max_restarts m) (restart_delay m) (last_error m) (error_count m)
    (health_check_interval m) (auto_restart_thread m) (shutdown_requested m).
Definition set_start_time v (m : MonitorService) :=
  Build_MonitorService (observer m) (handler m) (is_monitoring m) v (restart_count m)
    (max_restarts m) (restart_delay m) (last_error m) (error_count m)
    (health_check_interval m) (auto_restart_thread m) (shutdown_requested m).
Definition set_restart_count v (m : MonitorService) :=
  Build_MonitorService (observer m) (handler m) (is_monitoring m) (start_time m) v
    (max_restarts m) (restart_delay m) (last_error m) (error_count m)
    (health_check_interval m) (auto_restart_thread m) (shutdown_requested m).
Definition set_restart_delay v (m : MonitorService) :=
  Build_MonitorService (observer m) (handler m) (is_monitoring m) (start_time m)
    (restart_count m) (max_restarts m) v (last_error m) (error_count m)
    (health_check_interval m) (auto_restart_thread m) (shutdown_requested m).
Definition set_last_error v (m : MonitorService) :=
  Build_MonitorService (observer m) (handler m) (is_monitoring m) (start_time m)
    (restart_count m) (max_restarts m) (restart_delay m) v (error_count m)
    (health_check_interval m) (auto_restart_thread m) (shutdown_requested m).
Definition set_error_count v (m : MonitorService) :=
  Build_MonitorService (observer m) (handler m) (is_monitoring m) (start_time m)
    (restart_count m) (max_restarts m) (restart_delay m) (last_error m) v
    (health_check_interval m) (auto_restart_thread m) (shutdown_requested m).
Definition set_shutdown_requested v (m : MonitorService) :=
  Build_MonitorService (observer m) (handler m) (is_monitoring m) (start_time m)
    (restart_count m) (max_restarts m) (restart_delay m) (last_error m) (error_count m)
    (health_check_interval m) (auto_restart_thread m) v.

Definition print (line : string) : M world unit :=
  modify (fun w => World (service w) (audit_logger w) (stdout w ++ [line]) (slept w)).

(** [time.sleep(ms / 1000)]: a negative duration is a [ValueError]. *)
Definition sleep_ms (ms : Z) : M world unit :=
  if ms <? 0 then raise (Exn ValueError "sleep length must be non-negative")
  else modify (fun w => World (service w) (audit_logger w) (stdout w) (slept w ++ [ms])).

(** [self.audit_logger.set_monitoring_status(active)] inside its
    [try]/[except], when a logger was given. *)
Definition notify_audit_logger (e : AuditLogger.io) (active : bool) : M world unit :=
  fun w =>
    match audit_logger w with
    | Some a =>
        match AuditLogger.set_monitoring_status e active a with
        | (Ok _, a') => (Ok tt, World (service w) (Some a') (stdout w) (slept w))
        | (Raise ex, a') =>
            (Ok tt, World (service w) (Some a')
                      (stdout w ++ ["Warning: Failed to update audit logger status: "
                                    +:+ str ex]) (slept w))
        end
    | None => (Ok tt, w)
    end.

(** What the collaborators answer during one [start_monitoring] call. *)
Record start_env := Build_start_env
  { verify_tokens : result (list (string * bool));
    create_honey_tokens : result bool;
    verify_tokens_again : result (list (string * bool));
    get_token_paths : result (list string);
    watch_directory : result string;
    directory_exists : bool;
    directory_readable : bool;
    new_handler : result unit;
    new_observer : result unit;
    schedule : result unit;
    observer_start : result unit;
    alive_after_start : bool;
    utcnow : datetime;
    audit_io : AuditLogger.io }.

Definition missing (results : list (string * bool)) : list string :=
  List.map fst (List.filter (fun r => negb (snd r)) results).

(** The common shape of the failure exits of [start_monitoring]. *)
Definition fail (error_msg : string) : M world bool :=
  do! on_service (set_last_error (Some error_msg)) in
  do! print ("Error: " +:+ error_msg) in
  ret false.

(** Lines 211 to 234: verify the honey-tokens, recreate the missing ones. *)
Definition verify_block (env : start_env) (k : M world bool) : M world bool :=
  let failed ex := fail ("Failed to verify honey-tokens: " +:+ str ex) in
  match verify_tokens env with
  | Raise ex => failed ex
  | Ok verification_results =>
      match missing verification_results with
      | [] => k
      | missing_tokens =>
          do! print ("Warning: Some honey-tokens are missing: "
                     +:+ repr_names missing_tokens) in
          do! print "Attempting to recreate missing tokens..." in
          match create_honey_tokens env with
          | Raise ex => failed ex
          | Ok _ =>
              match verify_tokens_again env with
              | Raise ex => failed ex
              | Ok verification_results =>
                  match missing verification_results with
                  | [] => k
                  | still_missing =>
                      fail ("Failed to recreate honey-tokens: "
                            +:+ repr_names still_missing)
                  end
              end
          end
      end
  end.

(** Lines 237 to 248. *)
Definition paths_block (env : start_env) (k : list string -> M world bool)
    : M world bool :=
  match get_token_paths env with
  | Raise ex => fail ("Failed to get honey-token paths: " +:+ str ex)
  | Ok [] => fail "No honey-token paths found"
  | Ok token_paths => k token_paths
  end.

(** Lines 251 to 269. *)
Definition directory_block (env : start_env) (k : string -> M world bool)
    : M world bool :=
  match watch_directory env with
  | Raise ex => fail ("Failed to verify watch directory: " +:+ str ex)
  | Ok dir =>
      if negb (directory_exists env) then
        fail ("Watch directory does not exist: " +:+ dir)
      else if negb (directory_readable env) then
        fail ("Watch directory is not readable: " +:+ dir)
      else k dir
  end.

(** Lines 272 to 307: handler, observer, start of the observer. *)
Definition observer_block (env : start_env) (k : M world bool) : M world bool :=
  match new_handler env with
  | Raise ex => fail ("Failed to create event handler: " +:+ str ex)
  | Ok _ =>
      do! on_service (set_handler (Some 0)) in
      match new_observer env with
      | Raise ex => fail ("Failed to configure file observer: " +:+ str ex)
      | Ok _ =>
          do! on_service (set_observer (Some (Build_Observer false))) in
          match schedule env with
          | Raise ex => fail ("Failed to configure file observer: " +:+ str ex)
          | Ok _ =>
              match observer_start env with
              | Raise ex => fail ("Failed to start file observer: " +:+ str ex)
              | Ok _ =>
                  do! on_service (set_observer
                                    (Some (Build_Observer (alive_after_start env)))) in
                  let! started :=
                    try_except
                      (do! sleep_ms 500 in
                       if negb (alive_after_start env) then
                         fail "File observer failed to start properly"
                       else ret true)
                      (fun ex => fail ("Failed to start file observer: " +:+ str ex)) in
                  if started then k else ret false
              end
          end
      end
  end.

Definition start_monitoring (env : start_env) : M world bool :=
  try_except
    (let! m := gets service in
     if is_monitoring m then
       do! print "Monitoring is already active" in ret true
     else
       do! on_service (set_last_error None) in
       verify_block env (
       paths_block env (fun token_paths =>
       directory_block env (fun dir =>
       observer_block env (
         do! on_service (set_is_monitoring true) in
         do! on_service (set_start_time (Some (utcnow env))) in
         do! on_service (set_error_count 0) in
         do! notify_audit_logger (audit_io env) true in
         do! print ("🔍 Started monitoring "
                    +:+ str_int (Z.of_nat (List.length token_paths))
                    +:+ " honey-tokens in " +:+ dir) in
         do! print "Monitoring for unauthorized access..." in
         ret true)))))
    (fun ex =>
       let error_msg := "Unexpected error starting monitoring service: " +:+ str ex in
       do! on_service (set_last_error (Some error_msg)) in
       do! on_service (fun m => set_error_count (error_count m + 1) m) in
       do! print ("Error: " +:+ error_msg) in
       do! on_service (set_is_monitoring false) in
       do! on_service (fun m => match observer m with
                                | Some _ => set_observer None m
                                | None => m
                                end) in
       do! on_service (set_handler None) in
       ret false).

(** What the threads answer during one [stop_monitoring] call. *)
Record stop_env := Build_stop_env
  { thread_join : result unit;
    observer_stop : result unit;
    alive_after_stop : bool;
    observer_join : result unit;
    alive_after_join : bool;
    unschedule_all : result unit;
    stop_audit_io : AuditLogger.io }.

(** Lines 368 to 387. *)
Definition stop_observer (env : stop_env) : M world unit :=
  try_except
    (do! lift (observer_stop env) in
     do! (if alive_after_stop env then lift (observer_join env) else ret tt) in
     if alive_after_stop env && alive_after_join env then
       do! print "Warning: Observer did not stop gracefully, forcing shutdown" in
       try_except (lift (unschedule_all env))
         (fun ex => print ("Warning: Error during forced observer shutdown: "
                           +:+ str ex))
     else ret tt)
    (fun ex => print ("Warning: Error stopping file observer: " +:+ str ex)).

Definition clean_up : M world unit :=
  do! on_service (set_is_monitoring false) in
  do! on_service (set_observer None) in
  do! on_service (set_handler None) in
  on_service (set_shutdown_requested false).

Definition stop_monitoring (env : stop_env) : M world bool :=
  try_except
    (let! m := gets service in
     if negb (is_monitoring m) then
       do! print "Monitoring is not currently active" in ret true
     else
       do! on_service (set_shutdown_requested true) in
       do! (match auto_restart_thread m with
            | Some true =>
                try_except (lift (thread_join env))
                  (fun ex => print ("Warning: Error stopping auto-restart thread: "
                                    +:+ str ex))
            | _ => ret tt
            end) in
       do! (match observer m with
            | Some _ => stop_observer env
            | None => ret tt
            end) in
       do! notify_audit_logger (stop_audit_io env) false in
       do! clean_up in
       do! print "🛑 Stopped honey-token monitoring" in
       ret true)
    (fun ex =>
       let error_msg := "Error stopping monitoring service: " +:+ str ex in
       do! on_service (set_last_error (Some error_msg)) in
       do! print ("Error: " +:+ error_msg) in
       do! clean_up in
       ret false).

Definition is_running (m : MonitorService) : bool :=
  is_monitoring m
  && match observer m with Some o => is_alive o | None => false end.

Definition _get_health_status (m : MonitorService) : string :=
  if negb (is_monitoring m) then "stopped"
  else if truthy_opt (last_error m) then "degraded"
  else if error_count m >? 3 then "unhealthy"
  else if negb (is_running m) then "unhealthy"
  else "healthy".

(** The dictionary that [get_status] returns. *)
Record status_report := Build_status_report
  { r_is_monitoring : bool; r_is_running : bool; r_start_time : option string;
    r_uptime_seconds : Z; r_restart_count : Z; r_error_count : Z;
    r_last_error : option string; r_monitored_files : Z; r_event_count : Z;
    r_health_status : string; r_auto_restart_active : bool }.

(** [get_status]; [now] is the clock and [paths] what
    [honey_token_manager.get_token_paths()] answers. *)
Definition get_status (now : datetime) (paths : result (list string))
    : M world status_report :=
  let! m := gets service in
  let uptime_seconds :=
    match start_time m with
    | Some t0 => if is_monitoring m then seconds_between now t0 else 0
    | None => 0
    end in
  let! monitored_files_count :=
    match paths with
    | Ok l => ret (Z.of_nat (List.length l))
    | Raise ex =>
        do! (if negb (truthy_opt (last_error m)) then
               on_service (set_last_error
                             (Some ("Error getting token paths: " +:+ str ex)))
             else ret tt) in
        ret 0
    end in
  let! m := gets service in
  ret (Build_status_report (is_monitoring m) (is_running m)
         (option_map (fun t => isoformat t +:+ "Z") (start_time m))
         uptime_seconds (restart_count m) (error_count m) (last_error m)
         monitored_files_count (default 0 (handler m))
         (_get_health_status m)
         (match auto_restart_thread m with Some a => a | None => false end)).

Definition restart_monitoring (senv : stop_env) (env : start_env) : M world bool :=
  try_except
    (let! m := gets service in
     if restart_count m >=? max_restarts m then
       do! print ("Maximum restart attempts (" +:+ str_int (max_restarts m)
                  +:+ ") reached. Manual intervention required.") in
       ret false
     else
       do! print ("Restarting monitoring service (attempt "
                  +:+ str_int (restart_count m + 1) +:+ "/"
                  +:+ str_int (max_restarts m) +:+ ")") in
       do! stop_monitoring senv in
       let! m := gets service in
       do! sleep_ms (restart_delay m * 1000) in
       let! success := start_monitoring env in
       do! (if success then
              do! on_service (fun m => set_restart_count (restart_count m + 1) m) in
              do! on_service (fun m => set_restart_delay
                                         (Z.min (restart_delay m * 2) 60) m) in
              print "Monitoring service restarted successfully"
            else print "Failed to restart monitoring service") in
       ret success)
    (fun ex =>
       do! print ("Error restarting monitoring service: " +:+ str ex) in
       ret false).

(** Restart calls made one after the other, each with its environment. *)
Fixpoint restarts (envs : list (stop_env * start_env)) (w : world)
    : list (result bool) * world :=
  match envs with
  | [] => ([], w)
  | (senv, env) :: rest =>
      let '(r, w1) := restart_monitoring senv env w in
      let '(rs, w2) := restarts rest w1 in
      (r :: rs, w2)
  end.

End MonitorService.

(** ** Concrete inputs for the examples below *)
Module Examples.
Import Py Datetime AuditLogger Calls.

Definition t0 : datetime := Build_datetime 2024 1 1 0 0 0 0.
Definition t5 : datetime := Build_datetime 2024 1 1 0 0 5 0.
Definition t60 : datetime := Build_datetime 2024 1 1 0 1 0 0.

Definition python : process := Build_process "python" 4242 "ubuntu" ["python"; "app.py"].

Definition io_ok : io := Build_io WriteOk WriteOk true (Ok python).
Definition io_status_denied : io := Build_io WriteOk WriteDenied true (Ok python).
Definition io_attacks_denied : io := Build_io WriteDenied WriteOk true (Ok python).
Definition io_no_psutil : io :=
  Build_io WriteOk WriteDenied true (Raise (Exn RuntimeError "psutil.AccessDenied")).

(** An empty logs directory, and the world after [AuditLogger()] there. *)
Definition empty_disk : fs := Build_fs Absent Absent.

Definition safe_status : SystemStatus :=
  Build_SystemStatus "SAFE" None 0 false 0 "2024-01-01T00:00:00Z".

Definition w_start : world :=
  World (Build_fs Absent (Content safe_status)) (Build_AuditLogger t0 1).

Definition call_passwords : call :=
  Build_call io_ok t5 t5 "file_accessed" "/tok/passwords.txt" None None.
Definition call_api_keys : call :=
  Build_call io_ok t5 t5 "file_modified" "/tok/api_keys.json" None None.

(** A store left by an earlier run: the events ATK_001 and ATK_007. *)
Definition event_1 : AttackEvent :=
  Build_AttackEvent "2023-12-31T10:00:00Z" "file_accessed" "/tok/passwords.txt"
    "passwords.txt" "ATK_001" "cat" "311" "mallory" "cat passwords.txt" "127.0.0.1".
Definition event_7 : AttackEvent :=
  Build_AttackEvent "2023-12-31T11:30:00Z" "file_deleted" "/tok/config.env"
    "config.env" "ATK_007" "rm" "312" "mallory" "rm config.env" "127.0.0.1".
Definition disk_two_events : fs :=
  Build_fs (Content [to_dict event_1; to_dict event_7]) Absent.

(** The world after one recorded event. *)
Definition w_attacked : world := snd (run_call call_passwords w_start).

(** Two threads about to record an event each, and a schedule in which the
    second reads the counter before the first has incremented it. *)
Definition two_threads : list (call * pc) :=
  [(call_passwords, AtStart); (call_api_keys, AtStart)].
Definition racy_schedule : list nat := [0; 1; 0; 0; 0; 1; 1; 1]%nat.

End Examples.

(** * Properties *)

Ltac unfold_eff :=
  unfold Eff.try_except, Eff.bind, Eff.gets, Eff.lift, Eff.ret, Eff.raise,
    Eff.modify in *.

(** ** Decimal printing and [int] *)

Lemma append_nil s : EmptyString +:+ s = s.
Proof. reflexivity. Qed.

Lemma append_cons c r s : String c r +:+ s = String c (r +:+ s).
Proof. reflexivity. Qed.

Ltac push_append := rewrite ?append_cons, ?append_nil.

Section Decimal.
Import Py.

Lemma is_digit_cases c :
  is_digit c = true ->
  In c ["0"; "1"; "2"; "3"; "4"; "5"; "6"; "7"; "8"; "9"]%char.
Proof.
  destruct c as [[] [] [] [] [] [] [] []]; vm_compute; intros H;
    try discriminate H; tauto.
Qed.

Lemma is_digit_not_space c : is_digit c = true -> is_space c = false.
Proof.
  intros H. apply is_digit_cases in H. simpl in H.
  repeat (destruct H as [<- | H]; [reflexivity |]). destruct H.
Qed.

Lemma all_digits_string_of_uint d : all_digits (NilEmpty.string_of_uint d) = true.
Proof. induction d; simpl; auto. Qed.

Lemma digits_unfold n :
  digits n = NilEmpty.string_of_uint (N.to_uint (Z.to_N n)) /\
  N.to_uint (Z.to_N n) <> Decimal.Nil.
Proof.
  unfold digits. destruct (Z.to_N n) as [| p]; simpl; [split; [reflexivity | discriminate] |].
  pose proof (DecimalPos.Unsigned.to_uint_nonnil p) as Hp.
  destruct (Pos.to_uint p); try contradiction; split; auto.
Qed.

Lemma all_digits_digits n : all_digits (digits n) = true.
Proof. destruct (digits_unfold n) as [-> _]. apply all_digits_string_of_uint. Qed.

Lemma digits_nonempty n : digits n <> EmptyString.
Proof.
  destruct (digits_unfold n) as [-> Hn].
  destruct (N.to_uint (Z.to_N n)); simpl; congruence.
Qed.

Lemma all_digits_zeros_app k s : all_digits s = true -> all_digits (zeros k +:+ s) = true.
Proof.
  intros Hs. induction k; simpl; push_append; simpl; auto.
Qed.

Lemma all_digits_zfill w n : all_digits (zfill w (digits n)) = true.
Proof. apply all_digits_zeros_app, all_digits_digits. Qed.

Lemma zfill_nonempty w n : zfill w (digits n) <> EmptyString.
Proof.
  unfold zfill. destruct (zeros _); push_append; [apply digits_nonempty | discriminate].
Qed.

Lemma group_digits_all b s : all_digits s = true -> group_digits b s = Some s.
Proof.
  revert b. induction s as [| c r IH]; intros b H; simpl in *; [reflexivity |].
  apply andb_true_iff in H as [Hc Hr]. rewrite Hc, (IH true Hr). reflexivity.
Qed.

Lemma uint_of_string_zeros k s :
  NilEmpty.uint_of_string (zeros k +:+ s) =
  option_map (Nat.iter k Decimal.D0) (NilEmpty.uint_of_string s).
Proof.
  induction k; simpl; push_append; simpl.
  - destruct (NilEmpty.uint_of_string s); reflexivity.
  - rewrite IHk. destruct (NilEmpty.uint_of_string s); reflexivity.
Qed.

Lemma of_uint_iter_D0 k d : N.of_uint (Nat.iter k Decimal.D0 d) = N.of_uint d.
Proof. induction k; simpl; auto. Qed.

Lemma parse_digits_zfill w n : 0 <= n -> parse_digits (zfill w (digits n)) = Some n.
Proof.
  intros Hn. unfold parse_digits.
  rewrite group_digits_all by apply all_digits_zfill.
  pose proof (zfill_nonempty w n) as Hne.
  unfold NilZero.uint_of_string. destruct (zfill w (digits n)) eqn:E; [congruence |].
  rewrite <- E. unfold zfill. rewrite uint_of_string_zeros.
  destruct (digits_unfold n) as [-> _]. rewrite NilEmpty.usu. simpl.
  rewrite of_uint_iter_D0, DecimalN.Unsigned.of_to. f_equal. lia.
Qed.

Lemma lstrip_digits s : all_digits s = true -> lstrip s = s.
Proof.
  destruct s as [| c r]; simpl; [reflexivity |]. intros H.
  apply andb_true_iff in H as [Hc _]. rewrite (is_digit_not_space _ Hc). reflexivity.
Qed.

Lemma rstrip_digits s : all_digits s = true -> rstrip s = s.
Proof.
  induction s as [| c r IH]; simpl; [reflexivity |]. intros H.
  apply andb_true_iff in H as [Hc Hr]. rewrite (IH Hr).
  destruct r; [rewrite (is_digit_not_space _ Hc) |]; reflexivity.
Qed.

Lemma strip_digits s : all_digits s = true -> strip s = s.
Proof. intros H. unfold strip. rewrite lstrip_digits, rstrip_digits; auto. Qed.

Lemma strip_minus_digits s :
  all_digits s = true -> s <> EmptyString -> strip ("-" +:+ s) = "-" +:+ s.
Proof.
  intros H Hne. unfold strip. push_append. simpl. rewrite (rstrip_digits _ H).
  destruct s; [congruence | reflexivity].
Qed.

Lemma int_digits s n :
  all_digits s = true -> s <> EmptyString -> parse_digits s = Some n -> int s = Ok n.
Proof.
  intros H Hne Hp. unfold int. rewrite (strip_digits _ H).
  destruct s as [| c r]; [congruence |]. simpl in H.
  apply andb_true_iff in H as [Hc _]. apply is_digit_cases in Hc. simpl in Hc.
  repeat (destruct Hc as [<- | Hc]; [rewrite Hp; reflexivity |]). destruct Hc.
Qed.

(** [int] reads back what the [03d] format prints. *)
Lemma int_format_0d w n : int (format_0d w n) = Ok n.
Proof.
  unfold format_0d. destruct (n <? 0) eqn:E.
  - apply Z.ltb_lt in E. unfold int.
    rewrite strip_minus_digits by (apply all_digits_zfill || apply zfill_nonempty).
    push_append. rewrite parse_digits_zfill by lia. simpl. f_equal. lia.
  - apply Z.ltb_ge in E. apply int_digits.
    + apply all_digits_zfill.
    + apply zfill_nonempty.
    + apply parse_digits_zfill; assumption.
Qed.

Lemma split_digits s : all_digits s = true -> split "_" s = [s].
Proof.
  induction s as [| c r IH]; simpl; [reflexivity |]. intros H.
  apply andb_true_iff in H as [Hc Hr]. rewrite (IH Hr).
  apply is_digit_cases in Hc. simpl in Hc.
  repeat (destruct Hc as [<- | Hc]; [reflexivity |]). destruct Hc.
Qed.

Lemma split_format_0d w n : split "_" (format_0d w n) = [format_0d w n].
Proof.
  unfold format_0d. destruct (n <? 0).
  - push_append. simpl. rewrite split_digits by apply all_digits_zfill. reflexivity.
  - apply split_digits, all_digits_zfill.
Qed.

End Decimal.

(** ** Identifiers and the counter seed *)
Section Identifiers.
Import Py Datetime Eff AuditLogger Calls.

Lemma id_number_format n : id_number ("ATK_" +:+ format_0d 3 n) = Ok n.
Proof.
  unfold id_number. push_append. simpl. rewrite split_format_0d. simpl.
  apply int_format_0d.
Qed.

Lemma format_id_inj n m :
  "ATK_" +:+ format_0d 3 n = "ATK_" +:+ format_0d 3 m -> n = m.
Proof.
  intros H. pose proof (id_number_format n) as Hn. rewrite H, id_number_format in Hn.
  congruence.
Qed.

Lemma prefix_nil s : String.prefix EmptyString s = true.
Proof. destruct s; reflexivity. Qed.

Lemma scan_attack_format max_id attack n :
  attack !! "attack_id" = Some ("ATK_" +:+ format_0d 3 n) ->
  scan_attack max_id attack = Ok (Z.max max_id n).
Proof.
  intros H. unfold scan_attack. rewrite H. simpl default.
  push_append. simpl String.prefix.
  pose proof (id_number_format n) as Hn. unfold id_number in Hn.
  rewrite ?append_cons, ?append_nil in Hn.
  destruct (index _ 1) as [seg |]; simpl in Hn |- *; [| discriminate].
  rewrite Hn, prefix_nil. reflexivity.
Qed.

Lemma int_raises_ValueError s e : int s = Raise e -> kind e = ValueError.
Proof.
  unfold int. destruct (match strip s with EmptyString => _ | String _ _ => _ end);
    intros [= <-]; reflexivity.
Qed.

Lemma scan_attack_total max_id attack : exists m, scan_attack max_id attack = Ok m.
Proof.
  unfold scan_attack. destruct (String.prefix _ _); [| eauto].
  unfold index. destruct (_ !! 1%nat) as [seg |]; simpl; [| eauto].
  destruct (int seg) as [v | e] eqn:E; simpl; [eauto |].
  rewrite (int_raises_ValueError _ _ E). simpl. eauto.
Qed.

Lemma scan_attacks_total attacks : forall max_id, exists m, scan_attacks max_id attacks = Ok m.
Proof.
  induction attacks as [| a l IH]; intros m; simpl; [eauto |].
  destruct (scan_attack_total m a) as [m' ->]. simpl. apply IH.
Qed.

Lemma counter_total d : exists c, _get_next_attack_counter d = Ok c.
Proof.
  unfold _get_next_attack_counter. destruct (attacks_log_file d) as [| | l]; simpl; eauto.
  destruct l as [| a l]; simpl; eauto.
  destruct (scan_attack_total 0 a) as [m ->]. simpl.
  destruct (scan_attacks_total l m) as [m' ->]. simpl. eauto.
Qed.

Lemma scan_attacks_format l ns : 
  Forall2 (fun a n => a !! "attack_id" = Some ("ATK_" +:+ format_0d 3 n) /\ 0 <= n) l ns ->
  forall max_id, scan_attacks max_id l = Ok (fold_left Z.max ns max_id).
Proof.
  induction 1 as [| a n l ns [Ha _] _ IH]; intros m; simpl; [reflexivity |].
  rewrite (scan_attack_format _ _ _ Ha). simpl. apply IH.
Qed.

Lemma fold_left_max_bounds ns : forall a,
  a <= fold_left Z.max ns a /\ (forall n, In n ns -> n <= fold_left Z.max ns a) /\
  (fold_left Z.max ns a = a \/ In (fold_left Z.max ns a) ns).
Proof.
  induction ns as [| x ns IH]; intros a; simpl.
  - split; [lia |]. split; [tauto | auto].
  - destruct (IH (Z.max a x)) as (H1 & H2 & H3). split; [lia |]. split.
    + intros n [<- | Hn]; [lia | auto].
    + destruct H3 as [H3 | H3]; [| auto].
      destruct (Z.max_spec a x) as [[_ E] | [_ E]].
      * right. left. rewrite H3. symmetry. exact E.
      * left. rewrite H3. exact E.
Qed.

Lemma fold_left_max_is_max ns :
  ns <> [] -> (forall n, In n ns -> 0 <= n) ->
  In (fold_left Z.max ns 0) ns /\ (forall n, In n ns -> n <= fold_left Z.max ns 0).
Proof.
  intros Hne Hpos. destruct (fold_left_max_bounds ns 0) as (H1 & H2 & H3).
  split; [| assumption]. destruct H3 as [H3 | H3]; [| assumption].
  destruct ns as [| x ns]; [congruence |]. rewrite H3.
  assert (x = 0) as ->; [| left; reflexivity].
  pose proof (H2 x (or_introl eq_refl)). pose proof (Hpos x (or_introl eq_refl)). lia.
Qed.
End Identifiers.

(** ** The steps of [log_attack_event] *)
Section Recording.
Import Py Datetime Eff AuditLogger Calls.

Lemma process_info_total e : exists p, _get_current_process_info e = Ok p.
Proof. unfold _get_current_process_info. destruct (psutil_Process e); simpl; eauto. Qed.

Lemma make_attack_event_ok e now ty path pinfo ip w :
  exists ev, make_attack_event e now ty path pinfo ip w = (Ok ev, w) /\
    attack_id ev = "ATK_" +:+ format_0d 3 (attack_counter (self w)) /\
    timestamp ev = isoformat now +:+ "Z".
Proof.
  unfold make_attack_event. unfold_eff.
  destruct pinfo as [p |]; [| destruct (process_info_total e) as [p ->]];
    destruct ip; simpl; eexists; repeat split; reflexivity.
Qed.

Lemma save_system_status_run e st w :
  _save_system_status e st w =
  (Ok tt, set_status_file (snd (write_file (status_write e) (status_file (disk w)) st)) w).
Proof.
  unfold _save_system_status. unfold_eff. destruct (status_write e); reflexivity.
Qed.

Lemma load_system_status_run w : _load_system_status w = (Ok (loaded_status w), w).
Proof.
  unfold _load_system_status, loaded_status. unfold_eff.
  destruct (status_file (disk w)); reflexivity.
Qed.

Lemma update_system_status_run e now s la w :
  exists st,
    update_system_status e now s la w =
    (Ok tt, set_status_file (snd (write_file (status_write e) (status_file (disk w)) st)) w)
    /\ status st = s
    /\ monitoring_active st = monitoring_active (loaded_status w)
    /\ start_time st = start_time (loaded_status w)
    /\ (if truthy_opt la
        then last_attack st = la /\ total_attacks st = total_attacks (loaded_status w) + 1
        else last_attack st = last_attack (loaded_status w)
             /\ total_attacks st = total_attacks (loaded_status w)).
Proof.
  unfold update_system_status.
  unfold Eff.try_except at 1. unfold Eff.bind at 1. rewrite load_system_status_run.
  rewrite save_system_status_run. eexists. split; [reflexivity |].
  unfold refresh_uptime.
  destruct (truthy_opt la); destruct (truthy (start_time _)); simpl;
    try destruct (Py.try_except _ _); simpl; auto.
Qed.

(** What one [_save_attack_event] does to the files. *)
Lemma save_attack_event_run e ev w :
  self (snd (_save_attack_event e ev w)) = self w /\
  status_file (disk (snd (_save_attack_event e ev w))) = status_file (disk w) /\
  match fst (_save_attack_event e ev w) with
  | Ok _ =>
      attacks_log_file (disk w) <> Corrupt /\ attacks_write e = WriteOk /\
      attacks_log_file (disk (snd (_save_attack_event e ev w)))
      = Content (stored (disk w) ++ [to_dict ev])
  | Raise _ =>
      (attacks_log_file (disk w) = Corrupt \/ attacks_write e <> WriteOk) /\
      (attacks_log_file (disk (snd (_save_attack_event e ev w))) = attacks_log_file (disk w)
       \/ attacks_log_file (disk (snd (_save_attack_event e ev w))) = Corrupt)
  end.
Proof.
  unfold _save_attack_event, stored. unfold_eff.
  destruct w as [[a s] lg]. simpl.
  destruct a as [| | l]; destruct (attacks_write e); simpl;
    repeat split; auto; try discriminate; try (left; discriminate);
    try (right; discriminate).
Qed.


Lemma loaded_status_ext w w' :
  status_file (disk w') = status_file (disk w) -> self w' = self w ->
  loaded_status w' = loaded_status w.
Proof. unfold loaded_status. intros -> ->. reflexivity. Qed.

(** What one [log_attack_event] does: on return, the identifier is the
    counter, the counter has advanced and the event is the last of the
    store; on an exception, the counter and the status are untouched. *)
Lemma log_attack_event_run c w :
  system_start_time (self (snd (run_call c w))) = system_start_time (self w) /\
  match fst (run_call c w) with
  | Ok ev =>
      attack_id ev = "ATK_" +:+ format_0d 3 (attack_counter (self w)) /\
      timestamp ev = isoformat (c_now c) +:+ "Z" /\
      attack_counter (self (snd (run_call c w))) = attack_counter (self w) + 1 /\
      attacks_log_file (disk w) <> Corrupt /\ attacks_write (c_io c) = WriteOk /\
      attacks_log_file (disk (snd (run_call c w)))
      = Content (stored (disk w) ++ [to_dict ev]) /\
      exists st,
        status_file (disk (snd (run_call c w)))
        = snd (write_file (status_write (c_io c)) (status_file (disk w)) st) /\
        status st = "UNDER_ATTACK" /\
        total_attacks st = total_attacks (loaded_status w) + 1 /\
        last_attack st = Some (timestamp ev) /\
        monitoring_active st = monitoring_active (loaded_status w) /\
        start_time st = start_time (loaded_status w)
  | Raise _ =>
      attack_counter (self (snd (run_call c w))) = attack_counter (self w) /\
      status_file (disk (snd (run_call c w))) = status_file (disk w) /\
      (attacks_log_file (disk w) = Corrupt \/ attacks_write (c_io c) <> WriteOk) /\
      (attacks_log_file (disk (snd (run_call c w))) = attacks_log_file (disk w)
       \/ attacks_log_file (disk (snd (run_call c w))) = Corrupt)
  end.
Proof.
  destruct (make_attack_event_ok (c_io c) (c_now c) (c_event_type c) (c_file_path c)
              (c_process_info c) (c_ip_address c) w) as (ev & Hmk & Hid & Hts).
  pose proof (save_attack_event_run (c_io c) ev w) as (Hself & Hst & Hsave).
  destruct (_save_attack_event (c_io c) ev w) as [[[] | ex] w1] eqn:Esave;
    simpl in Hself, Hst, Hsave.
  - destruct (update_system_status_run (c_io c) (c_now' c) "UNDER_ATTACK"
                (Some (timestamp ev)) w1) as (st & Hup & Hs1 & Hs2 & Hs3 & Hs4).
    assert (truthy_opt (Some (timestamp ev)) = true) as Htr.
    { rewrite Hts. simpl. unfold truthy.
      destruct (isoformat (c_now c) +:+ "Z") eqn:E; [| reflexivity].
      exfalso. destruct (isoformat (c_now c)); discriminate E. }
    rewrite Htr in Hs4. destruct Hs4 as [Hs4 Hs5].
    rewrite (loaded_status_ext w w1 Hst Hself) in *.
    destruct Hsave as (Hs6 & Hs7 & Hs8).
    assert (run_call c w =
            (Ok ev, set_self (Build_AuditLogger (system_start_time (self w))
                                (attack_counter (self w) + 1))
                      (set_status_file
                         (snd (write_file (status_write (c_io c))
                                 (status_file (disk w)) st)) w1))) as ->.
    { unfold run_call, log_attack_event, increment_counter. unfold_eff.
      rewrite Hmk, Esave, Hup. simpl. rewrite Hself, Hst. reflexivity. }
    simpl. split; [reflexivity |]. split; [exact Hid |]. split; [exact Hts |].
    split; [reflexivity |]. split; [exact Hs6 |]. split; [exact Hs7 |].
    split; [exact Hs8 |]. exists st. auto 10.
  - assert (run_call c w = (Raise ex, w1)) as ->.
    { unfold run_call, log_attack_event. unfold_eff. rewrite Hmk, Esave. reflexivity. }
    simpl. rewrite Hself, Hst. destruct Hsave as [Hs6 Hs7]. auto.
Qed.
End Recording.

(** ** Sequential calls *)
Section Sequential.
Import Py Datetime Eff AuditLogger Calls.

Lemma run_calls_cons c cs w :
  run_calls (c :: cs) w =
  (fst (run_call c w) :: fst (run_calls cs (snd (run_call c w))),
   snd (run_calls cs (snd (run_call c w)))).
Proof.
  simpl. destruct (run_call c w) as [r w1]. simpl.
  destruct (run_calls cs w1) as [rs w2]. reflexivity.
Qed.

(** A corrupt store stays corrupt and lets no call through. *)
Lemma run_calls_corrupt cs : forall w,
  attacks_log_file (disk w) = Corrupt ->
  completed (fst (run_calls cs w)) = [] /\
  attacks_log_file (disk (snd (run_calls cs w))) = Corrupt.
Proof.
  induction cs as [| c cs IH]; intros w Hc; [simpl; auto |].
  rewrite run_calls_cons. simpl.
  pose proof (log_attack_event_run c w) as [_ H].
  destruct (fst (run_call c w)) as [ev | ex].
  - destruct H as (_ & _ & _ & Hne & _). contradiction.
  - destruct H as (_ & _ & _ & [H | H]); apply IH; congruence.
Qed.

Lemma run_calls_ids cs : forall w,
  let evs := completed (fst (run_calls cs w)) in
  let w' := snd (run_calls cs w) in
  List.map attack_id evs
  = List.map (fun k => "ATK_" +:+ format_0d 3 (attack_counter (self w) + Z.of_nat k))
      (List.seq 0 (List.length evs)) /\
  attack_counter (self w') = attack_counter (self w) + Z.of_nat (List.length evs) /\
  (forall l', attacks_log_file (disk w') = Content l' ->
              l' = stored (disk w) ++ List.map to_dict evs).
Proof.
  induction cs as [| c cs IH]; intros w.
  - simpl. split; [reflexivity |]. split; [lia |].
    intros l' H. unfold stored. rewrite H, app_nil_r. reflexivity.
  - rewrite run_calls_cons. cbv zeta. cbn [fst snd].
    pose proof (log_attack_event_run c w) as [_ H].
    destruct (IH (snd (run_call c w))) as (IH1 & IH2 & IH3).
    destruct (fst (run_call c w)) as [ev | ex]; cbn [completed].
    + destruct H as (Hid & _ & Hc & _ & _ & Hst & _).
      split; [| split].
      * cbn [List.map List.length List.seq]. rewrite IH1, Hid, Z.add_0_r. f_equal.
        rewrite <- seq_shift, List.map_map. apply List.map_ext.
        intros k. rewrite Hc. do 2 f_equal. lia.
      * rewrite IH2, Hc. change (List.length (ev :: ?l)) with (S (List.length l)). lia.
      * intros l' Hl'. rewrite (IH3 l' Hl'). unfold stored at 1. rewrite Hst.
        rewrite <- app_assoc. reflexivity.
    + destruct H as (Hc & _ & _ & Hf). rewrite <- Hc. split; [exact IH1 |].
      split; [exact IH2 |]. intros l' Hl'.
      destruct Hf as [Hf | Hf].
      * rewrite (IH3 l' Hl'). unfold stored. rewrite Hf. reflexivity.
      * destruct (run_calls_corrupt cs _ Hf) as [_ Hcor]. congruence.
Qed.

End Sequential.

Section SequentialIds.
Import Py Datetime Eff AuditLogger Calls.

Lemma completed_lookup cs : forall w i a,
  completed (fst (run_calls cs w)) !! i = Some a ->
  attack_id a = "ATK_" +:+ format_0d 3 (attack_counter (self w) + Z.of_nat i).
Proof.
  induction cs as [| c cs IH]; intros w i a; [discriminate |].
  rewrite run_calls_cons. cbn [fst completed].
  pose proof (log_attack_event_run c w) as [_ H].
  destruct (fst (run_call c w)) as [ev | ex].
  - destruct H as (Hid & _ & Hc & _). destruct i as [| i]; cbn.
    + intros [= <-]. rewrite Hid, Z.add_0_r. reflexivity.
    + intros Hi. rewrite (IH _ _ _ Hi), Hc. do 2 f_equal. lia.
  - destruct H as (Hc & _). intros Hi. rewrite (IH _ _ _ Hi), Hc. reflexivity.
Qed.

Lemma counter_of_formatted d l ns :
  attacks_log_file d = Content l -> l <> [] ->
  Forall2 (fun a n => a !! "attack_id" = Some ("ATK_" +:+ format_0d 3 n) /\ 0 <= n) l ns ->
  _get_next_attack_counter d = Ok (fold_left Z.max ns 0 + 1).
Proof.
  intros Hf Hne Hns. unfold _get_next_attack_counter. rewrite Hf.
  cbn [exists_ json_load Py.bind]. destruct l as [| a l]; [congruence |].
  rewrite (scan_attacks_format _ _ Hns). reflexivity.
Qed.

(** A thread that is never interrupted performs exactly the call. *)
Lemma uninterrupted_thread_is_call c w :
  run_schedule [0; 0; 0; 0]%nat [(c, AtStart)] w
  = ([(c, outcome_pc (fst (run_call c w)))], snd (run_call c w)).
Proof.
  unfold run_call, log_attack_event, increment_counter. unfold_eff.
  cbn -[make_attack_event _save_attack_event update_system_status].
  destruct (make_attack_event_ok (c_io c) (c_now c) (c_event_type c) (c_file_path c)
              (c_process_info c) (c_ip_address c) w) as (ev & -> & _).
  cbn -[make_attack_event _save_attack_event update_system_status].
  destruct (_save_attack_event (c_io c) ev w) as [[[] | ex] w2];
    cbn -[make_attack_event _save_attack_event update_system_status]; [| reflexivity].
  destruct (update_system_status (c_io c) (c_now' c) "UNDER_ATTACK"
              (Some (timestamp ev)) w2) as [[[] | ex] w3]; reflexivity.
Qed.

(** C1, as amended: for calls made one after the other on one instance, the
    identifiers of the calls that returned are pairwise distinct and
    strictly increasing in the order of return; a readable store holds
    them in that order after what it held before; and when the counter was
    seeded from the store they are above every identifier already there. *)
Theorem sequential_ids_distinct_increasing (cs : list call) (w : world) :
  let evs := completed (fst (run_calls cs w)) in
  let w' := snd (run_calls cs w) in
  NoDup (attack_id <$> evs) /\
  (forall i j a b, (i < j)%nat -> evs !! i = Some a -> evs !! j = Some b ->
     exists n m, id_number (attack_id a) = Ok n /\ id_number (attack_id b) = Ok m /\ n < m) /\
  (forall l', attacks_log_file (disk w') = Content l' ->
     l' = stored (disk w) ++ List.map to_dict evs) /\
  (forall ns,
     Forall2 (fun a n => a !! "attack_id" = Some ("ATK_" +:+ format_0d 3 n) /\ 0 <= n)
       (stored (disk w)) ns ->
     _get_next_attack_counter (disk w) = Ok (attack_counter (self w)) ->
     forall n i ev, In n ns -> evs !! i = Some ev ->
       exists m, id_number (attack_id ev) = Ok m /\ n < m).
Proof.
  intros evs w'. split; [| split; [| split]].
  - apply NoDup_alt. intros i j x Hi Hj.
    rewrite list_lookup_fmap in Hi, Hj.
    destruct (evs !! i) as [a |] eqn:Ea; [| discriminate].
    destruct (evs !! j) as [b |] eqn:Eb; [| discriminate].
    injection Hi as Hi. injection Hj as Hj.
    rewrite (completed_lookup _ _ _ _ Ea) in Hi.
    rewrite (completed_lookup _ _ _ _ Eb) in Hj.
    rewrite <- Hj in Hi. apply format_id_inj in Hi. lia.
  - intros i j a b Hij Ha Hb.
    exists (attack_counter (self w) + Z.of_nat i), (attack_counter (self w) + Z.of_nat j).
    rewrite (completed_lookup _ _ _ _ Ha), (completed_lookup _ _ _ _ Hb).
    rewrite !id_number_format. repeat split; lia.
  - apply (run_calls_ids cs w).
  - intros ns Hns Hseed n i ev Hn Hev.
    exists (attack_counter (self w) + Z.of_nat i).
    rewrite (completed_lookup _ _ _ _ Hev), id_number_format. split; [reflexivity |].
    enough (n < attack_counter (self w)) by lia.
    unfold stored in Hns.
    destruct (attacks_log_file (disk w)) as [| | [| a l]] eqn:Ef;
      [inversion Hns; subst; destruct Hn .. |].
    rewrite (counter_of_formatted _ _ _ Ef ltac:(discriminate) Hns) in Hseed.
    injection Hseed as <-.
    destruct (fold_left_max_bounds ns 0) as (_ & Hmax & _).
    specialize (Hmax n Hn). lia.
Qed.

(** C1 as stated fails for calls that overlap in time: two threads that
    record an event each, scheduled so that both read the counter before
    either increments it, both return the identifier ATK_001. *)
Lemma interleaved_calls_share_an_id :
  attack_id <$> returned_events
                  (fst (run_schedule Examples.racy_schedule Examples.two_threads
                          Examples.w_start))
  = ["ATK_001"; "ATK_001"]
  /\ ~ NoDup (attack_id <$> returned_events
                (fst (run_schedule Examples.racy_schedule Examples.two_threads
                        Examples.w_start))).
Proof.
  assert (attack_id <$> returned_events
                  (fst (run_schedule Examples.racy_schedule Examples.two_threads
                          Examples.w_start))
          = ["ATK_001"; "ATK_001"]) as E by (vm_compute; reflexivity).
  split; [exact E |]. rewrite E. intros H.
  apply NoDup_cons in H as [H _]. apply H. left.
Qed.

End SequentialIds.

(** ** Construction of an instance *)
Section Construction.
Import Py Datetime Eff AuditLogger Calls.

Lemma counter_reads_attacks_only a sf sf' :
  _get_next_attack_counter (Build_fs a sf) = _get_next_attack_counter (Build_fs a sf').
Proof. reflexivity. Qed.

Lemma init_run e now d :
  exists c sf,
    _get_next_attack_counter d = Ok c /\
    init e now d = Ok (World (Build_fs (attacks_log_file d) sf) (Build_AuditLogger now c)) /\
    match status_file d with
    | Absent =>
        sf = snd (write_file (status_write e) Absent
                    (default_status (Build_AuditLogger now 0)))
    | f => sf = f
    end.
Proof.
  destruct (counter_total d) as [c Hc]. destruct d as [a f].
  assert (forall sf, _get_next_attack_counter (Build_fs a sf) = Ok c) as Hc'.
  { intros sf. rewrite (counter_reads_attacks_only a sf f). exact Hc. }
  destruct f as [| | s]; exists c; eexists; (split; [exact Hc |]);
    unfold init, _initialize_system_status; unfold_eff;
    cbn -[_get_next_attack_counter _save_system_status].
  - rewrite save_system_status_run. cbn -[_get_next_attack_counter].
    rewrite Hc'. cbn. split; reflexivity.
  - rewrite Hc'. cbn. split; reflexivity.
  - rewrite Hc'. cbn. split; reflexivity.
Qed.

(** C2: a new instance seeds its counter at 1 on an absent, corrupt or
    empty store and at the largest stored identifier plus 1 otherwise, and
    allocates that value as its next identifier. *)
Theorem counter_seeded_from_store (e : io) (now : datetime) (d : fs) :
  exists w,
    init e now d = Ok w /\
    _get_next_attack_counter d = Ok (attack_counter (self w)) /\
    (attacks_log_file d = Absent \/ attacks_log_file d = Corrupt
     \/ attacks_log_file d = Content [] -> attack_counter (self w) = 1) /\
    (forall l ns,
       attacks_log_file d = Content l -> l <> [] ->
       Forall2 (fun a n => a !! "attack_id" = Some ("ATK_" +:+ format_0d 3 n) /\ 0 <= n)
         l ns ->
       exists m, In m ns /\ (forall n, In n ns -> n <= m)
                 /\ attack_counter (self w) = m + 1) /\
    (forall c ev, fst (run_call c w) = Ok ev ->
       attack_id ev = "ATK_" +:+ format_0d 3 (attack_counter (self w))).
Proof.
  destruct (init_run e now d) as (c & sf & Hc & Hinit & _).
  eexists. split; [exact Hinit |]. cbn [self attack_counter].
  split; [exact Hc |]. split; [| split].
  - unfold _get_next_attack_counter in Hc.
    intros [H | [H | H]]; rewrite H in Hc; cbn in Hc; congruence.
  - intros l ns Hl Hne Hns.
    rewrite (counter_of_formatted _ _ _ Hl Hne Hns) in Hc. injection Hc as <-.
    assert (ns <> []) as Hns' by (destruct Hns; congruence).
    assert (forall n, In n ns -> 0 <= n) as Hpos.
    { clear -Hns. induction Hns as [| a n l ns [_ Hn] _ IH]; intros k; [intros [] |].
      intros [<- | Hk]; auto. }
    destruct (fold_left_max_is_max ns Hns' Hpos) as [Hin Hmax].
    exists (fold_left Z.max ns 0). auto.
  - intros cl ev Hev. pose proof (log_attack_event_run cl
      (World (Build_fs (attacks_log_file d) sf) (Build_AuditLogger now c))) as [_ H].
    rewrite Hev in H. destruct H as [H _]. exact H.
Qed.

(** On the store that holds ATK_001 and ATK_007 the new instance starts at 8. *)
Lemma counter_seeded_from_store_witness :
  exists w, init Examples.io_ok Examples.t0 Examples.disk_two_events = Ok w
            /\ attack_counter (self w) = 8.
Proof.
  destruct (counter_seeded_from_store Examples.io_ok Examples.t0
              Examples.disk_two_events) as (w & Hinit & _ & _ & Hmax & _).
  exists w. split; [exact Hinit |].
  assert (Forall2
            (fun a n => a !! "attack_id" = Some ("ATK_" +:+ format_0d 3 n) /\ 0 <= n)
            [to_dict Examples.event_1; to_dict Examples.event_7] [1; 7]) as Hns.
  { repeat (constructor; [split; [vm_compute; reflexivity | lia] |]). constructor. }
  destruct (Hmax _ [1; 7] eq_refl ltac:(discriminate) Hns) as (m & Hin & Hle & ->).
  pose proof (Hle 7 ltac:(simpl; auto)).
  destruct Hin as [<- | [<- | []]]; [lia | reflexivity].
Defined.

End Construction.
